(** * eolic: remote targets, dispatchers and the target handler

    A shallow embedding of [eolic/remote.py].  Python values are a small
    inductive type, exceptions are the [Raise] branch of a result type, and
    the handler's methods are state transformers over a store that keeps
    the class-level and the instance-level list objects apart. *)

From Stdlib Require Import ZArith String List Bool Lia.
From stdpp Require Import base list strings.
Import ListNotations.
Local Open Scope string_scope.
Local Open Scope list_scope.

Set Warnings "-register-all".

(** ** Python values *)

(** The fragment of Python objects that descriptors, events and event
    arguments are made of.  A dict is the list of its items in insertion
    order (keys are strings and occur once).  [VEnum cls member value] is the
    member [cls.member] of a plain [Enum] class whose members have string
    values. *)
Inductive pyval : Type :=
| VNone
| VInt (z : Z)
| VStr (s : string)
| VEnum (cls member value : string)
| VList (items : list pyval)
| VDict (items : list (string * pyval)).

Definition dict : Type := list (string * pyval).

(** [d.get(key)] as an option: the value bound to [key], if any. *)
Fixpoint dict_lookup {A : Type} (d : list (string * A)) (key : string) : option A :=
  match d with
  | [] => None
  | (k, v) :: d' => if String.eqb k key then Some v else dict_lookup d' key
  end.

(** [d.get(key, default)]. *)
Definition dict_get (d : dict) (key : string) (default : pyval) : pyval :=
  match dict_lookup d key with
  | Some v => v
  | None => default
  end.

(** Python's [==] on the fragment: lists compare item by item, dicts as
    mappings, enum members by identity (class and member name). *)
Fixpoint py_eq (a b : pyval) {struct a} : bool :=
  match a, b with
  | VNone, VNone => true
  | VInt x, VInt y => Z.eqb x y
  | VStr s, VStr t => String.eqb s t
  | VEnum c m _, VEnum c' m' _ => String.eqb c c' && String.eqb m m'
  | VList l, VList l' =>
      (fix items (l l' : list pyval) {struct l} : bool :=
         match l, l' with
         | [], [] => true
         | x :: l, y :: l' => py_eq x y && items l l'
         | _, _ => false
         end) l l'
  | VDict d, VDict d' =>
      Nat.eqb (length d) (length d') &&
      (fix items (d : list (string * pyval)) : bool :=
         match d with
         | [] => true
         | (k, v) :: d => match dict_lookup d' k with
                          | Some v' => py_eq v v'
                          | None => false
                          end && items d
         end) d
  | _, _ => false
  end.

(** [x in l] for a list [l]. *)
Definition py_in (x : pyval) (l : list pyval) : bool :=
  existsb (fun e => py_eq e x) l.

(** Truth value of an object, as tested by [if obj:]. *)
Definition py_truthy (v : pyval) : bool :=
  match v with
  | VNone => false
  | VInt z => negb (Z.eqb z 0)
  | VStr s => negb (String.eqb s "")
  | VEnum _ _ _ => true
  | VList l => negb (Nat.eqb (length l) 0)
  | VDict d => negb (Nat.eqb (length d) 0)
  end.

(** What [type(v)] prints as inside a formatted message. *)
Definition type_repr (v : pyval) : string :=
  match v with
  | VNone => "<class 'NoneType'>"
  | VInt _ => "<class 'int'>"
  | VStr _ => "<class 'str'>"
  | VEnum cls _ _ => "<enum '" ++ cls ++ "'>"
  | VList _ => "<class 'list'>"
  | VDict _ => "<class 'dict'>"
  end.

(** ** Exceptions and results *)

Inductive exn : Type :=
| TypeError (msg : string)
| KeyError (key : string)
| ValidationError (model : string)
| NotImplementedError (msg : string)
| Exception (msg : string)
| RequestException (msg : string)
| CeleryError (msg : string)
| AttributeError (name : string).

Inductive result (A : Type) : Type :=
| Ok (a : A)
| Raise (e : exn).
Arguments Ok {A} a.
Arguments Raise {A} e.

Definition rbind {A B : Type} (r : result A) (k : A -> result B) : result B :=
  match r with
  | Ok a => k a
  | Raise e => Raise e
  end.

Declare Scope result_scope.
Delimit Scope result_scope with result.
Notation "'do' x <- r ; k" := (rbind r (fun x => k))
  (at level 10, x name, r at level 100, k at level 200) : result_scope.

(** The error taxonomy of the specification, and the exception classes of
    the code that fall under each name. *)
Inductive error_class : Type :=
| InvalidTargetError
| UnsupportedTargetError
| IntegrationUnavailableError
| TransportError
| InternalError.

Definition classify (e : exn) : error_class :=
  match e with
  | TypeError _ | KeyError _ | ValidationError _ => InvalidTargetError
  | NotImplementedError _ => UnsupportedTargetError
  | Exception _ => IntegrationUnavailableError
  | RequestException _ | CeleryError _ => TransportError
  | AttributeError _ => InternalError
  end.

(** ** The model classes ([eolic/model.py])

    [remote.py] imports its target classes, the kind enumeration and the
    [EventDTO] envelope from [eolic/model.py]. *)

(** [EventRemoteTargetType]: the members [url] and [celery] are named by
    [remote.py]; [other_kind name] stands for any further member. *)
Inductive EventRemoteTargetType : Type :=
| url
| celery
| other_kind (name : string).

Record EventRemoteURLTarget : Type := {
  url_type : EventRemoteTargetType;
  url_address : string;
  url_headers : dict;
  url_events : option (list pyval)
}.

Record EventRemoteCeleryTarget : Type := {
  celery_type : EventRemoteTargetType;
  celery_address : string;
  celery_events : option (list pyval);
  queue_name : string;
  function_name : string
}.

Record EventRemoteBaseTarget : Type := {
  base_type : EventRemoteTargetType;
  base_events : option (list pyval);
  base_fields : dict
}.

(** An instance of [EventRemoteTarget]: of one of its two subclasses, or of
    the base class itself. *)
Inductive EventRemoteTarget : Type :=
| URLTarget (t : EventRemoteURLTarget)
| CeleryTarget (t : EventRemoteCeleryTarget)
| BaseTarget (t : EventRemoteBaseTarget).

(** [target.events]. *)
Definition events (target : EventRemoteTarget) : option (list pyval) :=
  match target with
  | URLTarget t => url_events t
  | CeleryTarget t => celery_events t
  | BaseTarget t => base_events t
  end.

(** [target.type]. *)
Definition type (target : EventRemoteTarget) : EventRemoteTargetType :=
  match target with
  | URLTarget t => url_type t
  | CeleryTarget t => celery_type t
  | BaseTarget t => base_type t
  end.

Definition kind_name (k : EventRemoteTargetType) : string :=
  match k with
  | url => "url"
  | celery => "celery"
  | other_kind name => name
  end.

(** [EventDTO]: the envelope of an HTTP dispatch; [model_dump()] gives the
    three fields as a mapping. *)
Record EventDTO : Type := {
  dto_event : string;
  dto_args : list pyval;
  dto_kwargs : dict
}.

(** ** The runtime

    What the code takes from its environment: the parts of [model.py] that
    are constants, the interpreter's [str()], whether the [celery] module can
    be imported ([utils.is_module_installed]), and the two transports. *)

Record HttpRequest : Type := {
  req_url : string;
  req_json : EventDTO;
  req_headers : dict;
  req_timeout : Z
}.

Record CeleryTask : Type := {
  task_broker : string;
  task_name : string;
  task_args : list pyval;
  task_kwargs : dict;
  task_queue : string
}.

Record Runtime : Type := {
  (** names of the members of [EventRemoteTargetType] besides [url] and
      [celery] *)
  other_members : list string;
  (** class defaults of [EventRemoteCeleryTarget] *)
  default_queue_name : string;
  default_function_name : string;
  (** [str(obj)] for an object that is not a [str] *)
  builtin_str : pyval -> string;
  (** [is_module_installed("celery")] *)
  celery_installed : bool;
  (** [requests.post]: the response's status code, or the exception *)
  requests_post : HttpRequest -> result Z;
  (** [Celery(broker).send_task]: the task id, or the exception *)
  send_task : CeleryTask -> result string
}.

(** [str(obj)]. *)
Definition py_str (rt : Runtime) (v : pyval) : string :=
  match v with
  | VStr s => s
  | _ => builtin_str rt v
  end.

(** [EventRemoteTargetType[name]]: lookup of a member by name. *)
Definition EventRemoteTargetType_getitem (rt : Runtime) (name : string)
  : result EventRemoteTargetType :=
  if String.eqb name "url" then Ok url
  else if String.eqb name "celery" then Ok celery
  else if existsb (String.eqb name) (other_members rt) then Ok (other_kind name)
  else Raise (KeyError name).

(** Modelled from the spec: field validation of the target classes, which
    live in [model.py].  A target has an optional collection of event names;
    an HTTP target has a required address and a header mapping; a queue
    target has a required address, a queue name and a function name.  A
    field that is absent ([None]) where required, or not of its shape, is a
    [ValidationError]. *)
Definition validate_str (model : string) (v : pyval) : result string :=
  match v with
  | VStr s => Ok s
  | _ => Raise (ValidationError model)
  end.

Definition validate_events (model : string) (v : pyval) : result (option (list pyval)) :=
  match v with
  | VNone => Ok None
  | VList l => Ok (Some l)
  | _ => Raise (ValidationError model)
  end.

Definition validate_mapping (model : string) (v : pyval) : result dict :=
  match v with
  | VDict d => Ok d
  | _ => Raise (ValidationError model)
  end.

Local Open Scope result_scope.

(** Modelled from the spec: [EventRemoteURLTarget(type=, address=, headers=,
    events=)] of [model.py]. *)
Definition EventRemoteURLTarget_new (k : EventRemoteTargetType)
  (address headers evs : pyval) : result EventRemoteTarget :=
  do a <- validate_str "EventRemoteURLTarget" address ;
  do h <- validate_mapping "EventRemoteURLTarget" headers ;
  do e <- validate_events "EventRemoteURLTarget" evs ;
  Ok (URLTarget {| url_type := k; url_address := a; url_headers := h; url_events := e |}).

(** Modelled from the spec: [EventRemoteCeleryTarget] of [model.py], called
    with [event_target_kwargs] unpacked as keywords; [queue_name] and
    [function_name] take the class default when the keyword is not passed. *)
Definition EventRemoteCeleryTarget_new (rt : Runtime) (event_target_kwargs : dict)
  (k : EventRemoteTargetType) : result EventRemoteTarget :=
  do a <- validate_str "EventRemoteCeleryTarget" (dict_get event_target_kwargs "address" VNone) ;
  do e <- validate_events "EventRemoteCeleryTarget" (dict_get event_target_kwargs "events" VNone) ;
  do q <- validate_str "EventRemoteCeleryTarget"
            (dict_get event_target_kwargs "queue_name" (VStr (default_queue_name rt))) ;
  do f <- validate_str "EventRemoteCeleryTarget"
            (dict_get event_target_kwargs "function_name" (VStr (default_function_name rt))) ;
  Ok (CeleryTarget {| celery_type := k; celery_address := a; celery_events := e;
                      queue_name := q; function_name := f |}).

(** Modelled from the spec: [EventRemoteTarget] of [model.py], called with
    the descriptor unpacked as keywords: the generic target, which keeps the
    descriptor's fields as they are. *)
Definition EventRemoteTarget_new (k : EventRemoteTargetType) (target : dict)
  : result EventRemoteTarget :=
  do e <- validate_events "EventRemoteTarget" (dict_get target "events" VNone) ;
  Ok (BaseTarget {| base_type := k; base_events := e; base_fields := target |}).

(** [d.update({key: value})]. *)
Fixpoint dict_update (d : dict) (key : string) (value : pyval) : dict :=
  match d with
  | [] => [(key, value)]
  | (k, v) :: d' =>
      if String.eqb k key then (k, value) :: d' else (k, v) :: dict_update d' key value
  end.

(** ** [EventRemoteTargetHandler._parse_target] *)

Definition _parse_target (rt : Runtime) (target : pyval) : result EventRemoteTarget :=
  let target :=
    match target with
    | VStr s => VDict [("type", VStr "url"); ("address", target)]
    | _ => target
    end in
  match target with
  | VDict d =>
      let target_type := dict_get d "type" VNone in
      match target_type with
      | VStr name =>
          do event_remote_target_type <- EventRemoteTargetType_getitem rt name ;
          match event_remote_target_type with
          | url =>
              match dict_lookup d "address" with
              | None => Raise (KeyError "address")
              | Some address =>
                  EventRemoteURLTarget_new event_remote_target_type address
                    (dict_get d "headers" (VDict [])) (dict_get d "events" VNone)
              end
          | celery =>
              (* the "type" entry of the keywords is passed as the member itself *)
              let event_target_kwargs : dict :=
                [("address", dict_get d "address" VNone);
                 ("events", dict_get d "events" VNone)] in
              let event_target_kwargs :=
                if py_truthy (dict_get d "queue_name" VNone)
                then dict_update event_target_kwargs "queue_name" (dict_get d "queue_name" VNone)
                else event_target_kwargs in
              let event_target_kwargs :=
                if py_truthy (dict_get d "function_name" VNone)
                then dict_update event_target_kwargs "function_name"
                       (dict_get d "function_name" VNone)
                else event_target_kwargs in
              EventRemoteCeleryTarget_new rt event_target_kwargs event_remote_target_type
          | other_kind _ => EventRemoteTarget_new event_remote_target_type d
          end
      | _ =>
          Raise (TypeError ("Target type needs to be of type str but received "
                            ++ type_repr target_type))
      end
  | _ =>
      Raise (TypeError ("Target needs to be of type str or Dict[str, str] but received "
                        ++ type_repr target))
  end.

(** ** Dispatchers *)

(** What a dispatch does to the outside world. *)
Inductive effect : Type :=
| Post (request : HttpRequest)
| SendTask (task : CeleryTask)
| LogResponse (address : string) (status_code : Z)
| LogTask (task_id : string).

(** An instance of a subclass of [EventRemoteDispatcher], with its
    attributes: [self.target], and [self.celery] (the broker the [Celery]
    application was built for). *)
Inductive EventRemoteDispatcher : Type :=
| URLDispatcher (target : EventRemoteURLTarget)
| CeleryDispatcher (target : EventRemoteCeleryTarget) (celery_app : string).

Module EventRemoteURLDispatcher.

Definition __init__ (target : EventRemoteURLTarget) : EventRemoteDispatcher :=
  URLDispatcher target.

Definition _build_request (rt : Runtime) (event : pyval) (args : list pyval)
  (kwargs : dict) : EventDTO :=
  let event_value := py_str rt event in
  let event_value :=
    match event with
    | VEnum _ _ value => value
    | _ => event_value
    end in
  {| dto_event := event_value; dto_args := args; dto_kwargs := kwargs |}.

Definition dispatch (rt : Runtime) (target : EventRemoteURLTarget) (event : pyval)
  (args : list pyval) (kwargs : dict) : list effect * result unit :=
  let request :=
    {| req_url := url_address target;
       req_json := _build_request rt event args kwargs;
       req_headers := url_headers target;
       req_timeout := 10 |} in
  match requests_post rt request with
  | Ok status_code =>
      ([Post request; LogResponse (url_address target) status_code], Ok tt)
  | Raise e => ([Post request], Raise e)
  end.

End EventRemoteURLDispatcher.

Module EventRemoteCeleryDispatcher.

Definition __init__ (rt : Runtime) (target : EventRemoteCeleryTarget)
  : result EventRemoteDispatcher :=
  if negb (celery_installed rt) then
    Raise (Exception ("Celery Integration is not installed. "
                      ++ "Please install eolic[celery] (using celery extras) to use this integration."))
  else Ok (CeleryDispatcher target (celery_address target)).

Definition dispatch (rt : Runtime) (target : EventRemoteCeleryTarget)
  (celery_app : string) (event : pyval) (args : list pyval) (kwargs : dict)
  : list effect * result unit :=
  let event_value := py_str rt event in
  let event_value :=
    match event with
    | VEnum _ _ value => value
    | _ => event_value
    end in
  let task :=
    {| task_broker := celery_app;
       task_name := function_name target;
       task_args := VStr event_value :: args;
       task_kwargs := kwargs;
       task_queue := queue_name target |} in
  match send_task rt task with
  | Ok task_id => ([SendTask task; LogTask task_id], Ok tt)
  | Raise e => ([SendTask task], Raise e)
  end.

End EventRemoteCeleryDispatcher.

(** [dispatcher.dispatch(event, *args, **kwargs)], by the dispatcher's
    class. *)
Definition dispatch (rt : Runtime) (dispatcher : EventRemoteDispatcher)
  (event : pyval) (args : list pyval) (kwargs : dict) : list effect * result unit :=
  match dispatcher with
  | URLDispatcher target => EventRemoteURLDispatcher.dispatch rt target event args kwargs
  | CeleryDispatcher target celery_app =>
      EventRemoteCeleryDispatcher.dispatch rt target celery_app event args kwargs
  end.

Module EventRemoteDispatcherFactory.

Definition create (rt : Runtime) (target : EventRemoteTarget)
  : result EventRemoteDispatcher :=
  match target with
  | URLTarget t => Ok (EventRemoteURLDispatcher.__init__ t)
  | CeleryTarget t => EventRemoteCeleryDispatcher.__init__ rt t
  | BaseTarget _ =>
      Raise (NotImplementedError
               ("EventRemoteDispatcher for " ++ kind_name (type target) ++ " not implemented"))
  end.

End EventRemoteDispatcherFactory.

(** ** The store *)

(** A [Future] of the pool: the call that was submitted and what came of
    it.  The pool runs every submitted call once; the model runs it when it
    is submitted and keeps the outcome, which [result()] hands out. *)
Record Future : Type := {
  fut_dispatcher : EventRemoteDispatcher;
  fut_event : pyval;
  fut_args : list pyval;
  fut_kwargs : dict;
  fut_outcome : result unit
}.

(** [future.result()]. *)
Definition Future_result (future : Future) : result unit := fut_outcome future.

(** The mutable objects the handler class and its instances point to. *)
Inductive obj : Type :=
| ListOfTargets (l : list EventRemoteTarget)
| ListOfFutures (l : list Future)
| ThreadPoolExecutor (max_workers : nat).

Definition addr : Type := nat.

(** The heap of objects, by address, and everything dispatched so far. *)
Record World : Type := {
  heap : list obj;
  wire : list effect
}.

(** The attributes of the class [EventRemoteTargetHandler], bound when the
    class body runs: [targets = []] and [futures = []]. *)
Definition class_dict : list (string * addr) := [("targets", 0); ("futures", 1)].

Definition class_body : World :=
  {| heap := [ListOfTargets []; ListOfFutures []]; wire := [] |}.

(** An instance of the handler: its own attribute dictionary. *)
Record instance : Type := { __dict__ : list (string * addr) }.

(** Attribute lookup [self.name]: the instance's dictionary, then the
    class's. *)
Definition getattr (self : instance) (name : string) : option addr :=
  match dict_lookup (__dict__ self) name with
  | Some a => Some a
  | None => dict_lookup class_dict name
  end.

(** State transformers that may raise; the world at the raise is kept. *)
Definition M (A : Type) : Type := World -> result A * World.

Definition ret {A : Type} (a : A) : M A := fun w => (Ok a, w).

Definition raise {A : Type} (e : exn) : M A := fun w => (Raise e, w).

Definition bind {A B : Type} (m : M A) (k : A -> M B) : M B :=
  fun w =>
    match m w with
    | (Ok a, w') => k a w'
    | (Raise e, w') => (Raise e, w')
    end.

Definition lift {A : Type} (r : result A) : M A := fun w => (r, w).

Declare Scope handler_scope.
Delimit Scope handler_scope with handler.
Notation "'do' x <- m ; k" := (bind m (fun x => k))
  (at level 10, x name, m at level 100, k at level 200) : handler_scope.

Local Open Scope handler_scope.

Definition attr (self : instance) (name : string) : M addr :=
  match getattr self name with
  | Some a => ret a
  | None => raise (AttributeError name)
  end.

Definition alloc (o : obj) : M addr :=
  fun w => (Ok (length (heap w)), {| heap := heap w ++ [o]; wire := wire w |}).

Definition load_targets (a : addr) : M (list EventRemoteTarget) :=
  fun w =>
    match heap w !! a with
    | Some (ListOfTargets l) => (Ok l, w)
    | _ => (Raise (AttributeError "targets"), w)
    end.

Definition load_futures (a : addr) : M (list Future) :=
  fun w =>
    match heap w !! a with
    | Some (ListOfFutures l) => (Ok l, w)
    | _ => (Raise (AttributeError "futures"), w)
    end.

Definition store (a : addr) (o : obj) : M unit :=
  fun w => (Ok tt, {| heap := <[a := o]> (heap w); wire := wire w |}).

(** [executor.submit(dispatcher.dispatch, event, *args, **kwargs)]. *)
Definition submit (rt : Runtime) (dispatcher : EventRemoteDispatcher) (event : pyval)
  (args : list pyval) (kwargs : dict) : M Future :=
  fun w =>
    let (effects, outcome) := dispatch rt dispatcher event args kwargs in
    (Ok {| fut_dispatcher := dispatcher; fut_event := event; fut_args := args;
           fut_kwargs := kwargs; fut_outcome := outcome |},
     {| heap := heap w; wire := wire w ++ effects |}).

(** ** [EventRemoteTargetHandler] *)

Module EventRemoteTargetHandler.

Definition __init__ : M instance :=
  do executor <- alloc (ThreadPoolExecutor 10);
  do futures <- alloc (ListOfFutures []);
  ret {| __dict__ := [("executor", executor); ("futures", futures)] |}.

Definition register (rt : Runtime) (self : instance) (target : pyval) : M unit :=
  do targets <- attr self "targets";
  do parsed <- lift (_parse_target rt target);
  do l <- load_targets targets;
  store targets (ListOfTargets (l ++ [parsed])).

Definition clear (self : instance) : M unit :=
  do targets <- attr self "targets";
  do _ <- load_targets targets;
  do _ <- store targets (ListOfTargets []);
  do futures <- attr self "futures";
  do _ <- load_futures futures;
  store futures (ListOfFutures []).

(** [target.events is None or event in target.events]. *)
Definition wants (target : EventRemoteTarget) (event : pyval) : bool :=
  match events target with
  | None => true
  | Some evs => py_in event evs
  end.

(** The body of the loop of [emit], for one [target]. *)
Definition emit_target (rt : Runtime) (self : instance) (event : pyval)
  (args : list pyval) (kwargs : dict) (target : EventRemoteTarget) : M unit :=
  if wants target event then
    do dispatcher <- lift (EventRemoteDispatcherFactory.create rt target);
    do future <- submit rt dispatcher event args kwargs;
    do futures <- attr self "futures";
    do l <- load_futures futures;
    store futures (ListOfFutures (l ++ [future]))
  else ret tt.

Fixpoint emit_loop (rt : Runtime) (self : instance) (event : pyval)
  (args : list pyval) (kwargs : dict) (targets : list EventRemoteTarget) : M unit :=
  match targets with
  | [] => ret tt
  | target :: rest =>
      do _ <- emit_target rt self event args kwargs target;
      emit_loop rt self event args kwargs rest
  end.

Definition emit (rt : Runtime) (self : instance) (event : pyval)
  (args : list pyval) (kwargs : dict) : M unit :=
  do targets <- attr self "targets";
  do l <- load_targets targets;
  emit_loop rt self event args kwargs l.

Fixpoint wait_loop (futures : list Future) : M unit :=
  match futures with
  | [] => ret tt
  | future :: rest =>
      do _ <- lift (Future_result future);
      wait_loop rest
  end.

Definition wait_for_all (self : instance) : M unit :=
  do futures <- attr self "futures";
  do l <- load_futures futures;
  do _ <- wait_loop l;
  store futures (ListOfFutures []).

End EventRemoteTargetHandler.

(** ** Predicates and scenarios used by the statements *)

(** [name] is the name of a member of [EventRemoteTargetType]. *)
Definition is_member (rt : Runtime) (name : string) : bool :=
  String.eqb name "url" || String.eqb name "celery"
  || existsb (String.eqb name) (other_members rt).


(** The registration inputs that the parser contract calls malformed. *)
Inductive Malformed : pyval -> Prop :=
| neither_str_nor_mapping (raw : pyval) :
    (forall s, raw <> VStr s) -> (forall d, raw <> VDict d) -> Malformed raw
| kind_missing (d : dict) :
    dict_lookup d "type" = None -> Malformed (VDict d)
| kind_not_a_string (d : dict) (v : pyval) :
    dict_lookup d "type" = Some v -> (forall s, v <> VStr s) -> Malformed (VDict d)
| url_without_address (d : dict) :
    dict_lookup d "type" = Some (VStr "url") ->
    dict_lookup d "address" = None -> Malformed (VDict d)
| celery_without_address (d : dict) :
    dict_lookup d "type" = Some (VStr "celery") ->
    dict_lookup d "address" = None -> Malformed (VDict d).

(** The POSTs and the task submissions among a list of effects. *)
Definition posts (effects : list effect) : list HttpRequest :=
  flat_map (fun e => match e with Post r => [r] | _ => [] end) effects.

Definition tasks (effects : list effect) : list CeleryTask :=
  flat_map (fun e => match e with SendTask t => [t] | _ => [] end) effects.

(** [future] is the dispatch of [event] to [target]. *)
Definition dispatch_of (rt : Runtime) (event : pyval) (args : list pyval)
  (kwargs : dict) (target : EventRemoteTarget) (future : Future) : Prop :=
  EventRemoteDispatcherFactory.create rt target = Ok (fut_dispatcher future)
  /\ fut_event future = event /\ fut_args future = args /\ fut_kwargs future = kwargs
  /\ fut_outcome future = snd (dispatch rt (fut_dispatcher future) event args kwargs).

(** [emit] can go past [target]: the target does not want the event, or
    the factory has a dispatcher for it. *)
Definition can_dispatch (rt : Runtime) (event : pyval) (target : EventRemoteTarget)
  : bool :=
  negb (EventRemoteTargetHandler.wants target event)
  || match EventRemoteDispatcherFactory.create rt target with
     | Ok _ => true
     | Raise _ => false
     end.

(** The list bound to [self.targets] and to [self.futures] in a world. *)
Definition targets_of (self : instance) (w : World) : option (list EventRemoteTarget) :=
  match getattr self "targets" with
  | Some a => match heap w !! a with
              | Some (ListOfTargets l) => Some l
              | _ => None
              end
  | None => None
  end.

Definition futures_of (self : instance) (w : World) : option (list Future) :=
  match getattr self "futures" with
  | Some a => match heap w !! a with
              | Some (ListOfFutures l) => Some l
              | _ => None
              end
  | None => None
  end.

(** A runtime to run scenarios in: [str()] of the usual objects, no kinds
    besides [url] and [celery], a broker that takes every task. *)
Definition scenario_str (v : pyval) : string :=
  match v with
  | VNone => "None"
  | VStr s => s
  | VEnum cls member _ => cls ++ "." ++ member
  | _ => "<object>"
  end.

Definition scenario_runtime (installed : bool) (post : HttpRequest -> result Z)
  : Runtime :=
  {| other_members := [];
     default_queue_name := "eolic";
     default_function_name := "eolic.handle";
     builtin_str := scenario_str;
     celery_installed := installed;
     requests_post := post;
     send_task := fun _ => Ok "task-1" |}.

Definition responds_200 (request : HttpRequest) : result Z := Ok 200%Z.

Definition unreachable (request : HttpRequest) : result Z :=
  Raise (RequestException "connection refused").

(** Run a handler method and keep the world it leaves. *)
Definition exec {A : Type} (m : M A) (w : World) : World := snd (m w).



(** An HTTP transport on which only [http://b.test] answers. *)
Definition only_b_reachable (request : HttpRequest) : result Z :=
  if String.eqb (req_url request) "http://b.test" then Ok 200%Z
  else Raise (RequestException "connection refused").

Definition celery_descriptor : pyval :=
  VDict [("type", VStr "celery"); ("address", VStr "redis://broker")].

(** Scenario: a handler registers one target, then a second handler is
    constructed. *)
Definition second_handler_scenario (rt : Runtime) : M (instance * instance) :=
  do first <- EventRemoteTargetHandler.__init__;
  do _ <- EventRemoteTargetHandler.register rt first (VStr "http://a.test");
  do second <- EventRemoteTargetHandler.__init__;
  ret (first, second).

(** Scenario: a handler with two HTTP targets emits one event. *)
Definition two_posts_scenario (rt : Runtime) : M instance :=
  do self <- EventRemoteTargetHandler.__init__;
  do _ <- EventRemoteTargetHandler.register rt self (VStr "http://a.test");
  do _ <- EventRemoteTargetHandler.register rt self (VStr "http://b.test");
  do _ <- EventRemoteTargetHandler.emit rt self (VStr "order.created") [] [];
  ret self.

(** Scenario: a handler registers a queue target, then an HTTP target. *)
Definition queue_then_http_scenario (rt : Runtime) : M instance :=
  do self <- EventRemoteTargetHandler.__init__;
  do _ <- EventRemoteTargetHandler.register rt self celery_descriptor;
  do _ <- EventRemoteTargetHandler.register rt self (VStr "http://b.test");
  ret self.

(** Scenario: target A without event filter, target B for
    [order.created] only; the addresses posted to when [event] is emitted. *)
Definition filtered_scenario (rt : Runtime) (event : pyval) : M (list string) :=
  do self <- EventRemoteTargetHandler.__init__;
  do _ <- EventRemoteTargetHandler.register rt self
            (VDict [("type", VStr "url"); ("address", VStr "http://a.test")]);
  do _ <- EventRemoteTargetHandler.register rt self
            (VDict [("type", VStr "url"); ("address", VStr "http://b.test");
                    ("events", VList [VStr "order.created"])]);
  do _ <- EventRemoteTargetHandler.emit rt self event [VInt 7] [("user", VStr "u1")];
  fun w => (Ok (map req_url (posts (wire w))), w).

(** The outcome of calling [result()] on [futures] in order: the first
    error, if there is one. *)
Fixpoint first_error (futures : list Future) : result unit :=
  match futures with
  | [] => Ok tt
  | future :: rest =>
      match fut_outcome future with
      | Ok _ => first_error rest
      | Raise e => Raise e
      end
  end.

(** The first error among the dispatches of [event] to the targets that
    want it, in registry order. *)
Fixpoint deferred_error (rt : Runtime) (event : pyval) (args : list pyval)
  (kwargs : dict) (targets : list EventRemoteTarget) : result unit :=
  match targets with
  | [] => Ok tt
  | target :: rest =>
      if EventRemoteTargetHandler.wants target event then
        match EventRemoteDispatcherFactory.create rt target with
        | Ok dispatcher =>
            match snd (dispatch rt dispatcher event args kwargs) with
            | Ok _ => deferred_error rt event args kwargs rest
            | Raise e => Raise e
            end
        | Raise e => Raise e
        end
      else deferred_error rt event args kwargs rest
  end.

(** The number of calls to a transport among a list of effects. *)
Definition transport_calls (effects : list effect) : nat :=
  length (posts effects) + length (tasks effects).

(** Two descriptors bind the same values to [keys]. *)
Definition same_fields (keys : list string) (d d' : dict) : Prop :=
  Forall (fun key => dict_lookup d key = dict_lookup d' key) keys.

(** An object that is a [str]. *)
Definition is_str (v : pyval) : bool :=
  match v with
  | VStr _ => true
  | _ => false
  end.

(** * Properties *)

(** ** The parser *)

Lemma getitem_member (rt : Runtime) (name : string) :
  is_member rt name = false ->
  EventRemoteTargetType_getitem rt name = Raise (KeyError name).
Proof.
  unfold is_member, EventRemoteTargetType_getitem. intros H.
  apply orb_false_elim in H as [H Hother].
  apply orb_false_elim in H as [Hurl Hcelery].
  now rewrite Hurl, Hcelery, Hother.
Qed.


Lemma attr_targets (self : instance) :
  exists a, getattr self "targets" = Some a.
Proof.
  unfold getattr. destruct (dict_lookup (__dict__ self) "targets") as [a|].
  - now exists a.
  - now exists 0.
Qed.

Lemma register_raises (rt : Runtime) (self : instance) (target : pyval) (e : exn)
  (w : World) :
  _parse_target rt target = Raise e ->
  EventRemoteTargetHandler.register rt self target w = (Raise e, w).
Proof.
  intros Hparse. destruct (attr_targets self) as [a Ha].
  unfold EventRemoteTargetHandler.register, attr, bind, lift, ret.
  now rewrite Ha, Hparse.
Qed.

(** C5.  A descriptor whose kind field (the key ["type"]) is a string that
    names no member of the kind enumeration is rejected when it is
    registered: [register] raises the [KeyError] of the enumeration lookup,
    an [InvalidTargetError] of the taxonomy, out of [_parse_target], and
    leaves the registry and everything else as they were, so no [emit] is
    involved. *)
Theorem register_unknown_kind_raises (rt : Runtime) (self : instance) (d : dict)
  (name : string) (w : World) :
  dict_lookup d "type" = Some (VStr name) ->
  is_member rt name = false ->
  _parse_target rt (VDict d) = Raise (KeyError name)
  /\ classify (KeyError name) = InvalidTargetError
  /\ EventRemoteTargetHandler.register rt self (VDict d) w = (Raise (KeyError name), w).
Proof.
  intros Htype Hmember.
  assert (_parse_target rt (VDict d) = Raise (KeyError name)) as Hparse.
  { unfold _parse_target, dict_get. rewrite Htype.
    now rewrite (getitem_member rt name Hmember). }
  split; [exact Hparse|]. split; [reflexivity|].
  now apply register_raises.
Qed.

Lemma register_unknown_kind_raises_witness :
  let rt := scenario_runtime true responds_200 in
  let d := [("type", VStr "unknown-kind"); ("address", VStr "http://a.test")] in
  let self := {| __dict__ := [("executor", 2); ("futures", 3)] |} in
  _parse_target rt (VDict d) = Raise (KeyError "unknown-kind")
  /\ classify (KeyError "unknown-kind") = InvalidTargetError
  /\ EventRemoteTargetHandler.register rt self (VDict d) class_body
     = (Raise (KeyError "unknown-kind"), class_body).
Proof.
  intros rt d self.
  apply (register_unknown_kind_raises rt self d "unknown-kind" class_body);
    reflexivity.
Defined.

(** C7.  On a malformed registration input [_parse_target] raises and
    produces no target: an input that is neither a string nor a mapping, and
    a descriptor whose kind field is missing or is not a string, raise
    [TypeError]; an HTTP descriptor without address raises [KeyError]; a
    queue descriptor without address is refused by the target class
    ([ValidationError]).  All three are [InvalidTargetError] in the
    taxonomy. *)
Theorem parse_rejects_malformed (rt : Runtime) (raw : pyval) :
  Malformed raw ->
  exists e, _parse_target rt raw = Raise e /\ classify e = InvalidTargetError.
Proof.
  intros [raw' Hstr Hdict | d Hkind | d v Hkind Hv | d Hkind Haddr | d Hkind Haddr].
  - destruct raw'; try (eexists; split; [reflexivity | reflexivity]).
    + now destruct (Hstr s).
    + now destruct (Hdict items).
  - unfold _parse_target, dict_get. rewrite Hkind.
    eexists; split; reflexivity.
  - unfold _parse_target, dict_get. rewrite Hkind.
    destruct v; try (eexists; split; reflexivity).
    now destruct (Hv s).
  - unfold _parse_target, dict_get. rewrite Hkind, Haddr.
    eexists; split; reflexivity.
  - unfold _parse_target, dict_get. rewrite Hkind, Haddr.
    change (EventRemoteTargetType_getitem rt "celery") with (Ok celery).
    cbn [rbind]. unfold EventRemoteCeleryTarget_new.
    destruct (py_truthy _); destruct (py_truthy _);
      (eexists; split; reflexivity).
Qed.

Lemma parse_rejects_malformed_witness :
  let rt := scenario_runtime true responds_200 in
  (exists e, _parse_target rt (VInt 7) = Raise e /\ classify e = InvalidTargetError)
  /\ (exists e, _parse_target rt (VDict [("address", VStr "http://a.test")]) = Raise e
                /\ classify e = InvalidTargetError)
  /\ (exists e, _parse_target rt (VDict [("type", VInt 1)]) = Raise e
                /\ classify e = InvalidTargetError)
  /\ (exists e, _parse_target rt (VDict [("type", VStr "url")]) = Raise e
                /\ classify e = InvalidTargetError)
  /\ (exists e, _parse_target rt (VDict [("type", VStr "celery"); ("queue_name", VStr "q")])
                = Raise e
                /\ classify e = InvalidTargetError).
Proof.
  intros rt. repeat split.
  - apply (parse_rejects_malformed rt (VInt 7)).
    apply neither_str_nor_mapping; discriminate.
  - apply (parse_rejects_malformed rt (VDict [("address", VStr "http://a.test")])).
    apply kind_missing. reflexivity.
  - apply (parse_rejects_malformed rt (VDict [("type", VInt 1)])).
    apply (kind_not_a_string _ (VInt 1)); [reflexivity | discriminate].
  - apply (parse_rejects_malformed rt (VDict [("type", VStr "url")])).
    apply url_without_address; reflexivity.
  - apply (parse_rejects_malformed rt
             (VDict [("type", VStr "celery"); ("queue_name", VStr "q")])).
    apply celery_without_address; reflexivity.
Defined.






(** ** The dispatchers *)






(** ** The handler *)

Lemma emit_unfold (rt : Runtime) (self : instance) (event : pyval)
  (args : list pyval) (kwargs : dict) (a : addr) (targets : list EventRemoteTarget)
  (w : World) :
  getattr self "targets" = Some a ->
  heap w !! a = Some (ListOfTargets targets) ->
  EventRemoteTargetHandler.emit rt self event args kwargs w
  = EventRemoteTargetHandler.emit_loop rt self event args kwargs targets w.
Proof.
  intros Ha Hw. unfold EventRemoteTargetHandler.emit, attr, bind, ret, load_targets.
  now rewrite Ha, Hw.
Qed.

Lemma emit_loop_app (rt : Runtime) (self : instance) (event : pyval)
  (args : list pyval) (kwargs : dict) (before after : list EventRemoteTarget)
  (w : World) :
  EventRemoteTargetHandler.emit_loop rt self event args kwargs (before ++ after) w
  = match EventRemoteTargetHandler.emit_loop rt self event args kwargs before w with
    | (Ok _, w1) => EventRemoteTargetHandler.emit_loop rt self event args kwargs after w1
    | (Raise e, w1) => (Raise e, w1)
    end.
Proof.
  revert w. induction before as [|target before IH]; intros w.
  - reflexivity.
  - cbn [app EventRemoteTargetHandler.emit_loop]. unfold bind.
    destruct (EventRemoteTargetHandler.emit_target rt self event args kwargs target w)
      as [[[]|e] w1]; [apply IH | reflexivity].
Qed.

Lemma emit_target_skips (rt : Runtime) (self : instance) (event : pyval)
  (args : list pyval) (kwargs : dict) (target : EventRemoteTarget) (w : World) :
  EventRemoteTargetHandler.wants target event = false ->
  EventRemoteTargetHandler.emit_target rt self event args kwargs target w = (Ok tt, w).
Proof.
  intros Hwants. unfold EventRemoteTargetHandler.emit_target. now rewrite Hwants.
Qed.

Lemma emit_target_raises (rt : Runtime) (self : instance) (event : pyval)
  (args : list pyval) (kwargs : dict) (target : EventRemoteTarget) (e : exn)
  (w : World) :
  EventRemoteTargetHandler.wants target event = true ->
  EventRemoteDispatcherFactory.create rt target = Raise e ->
  EventRemoteTargetHandler.emit_target rt self event args kwargs target w = (Raise e, w).
Proof.
  intros Hwants Hcreate. unfold EventRemoteTargetHandler.emit_target, bind, lift.
  now rewrite Hwants, Hcreate.
Qed.

Lemma emit_target_submits (rt : Runtime) (self : instance) (event : pyval)
  (args : list pyval) (kwargs : dict) (target : EventRemoteTarget)
  (dispatcher : EventRemoteDispatcher) (fa : addr) (old : list Future) (w : World) :
  EventRemoteTargetHandler.wants target event = true ->
  EventRemoteDispatcherFactory.create rt target = Ok dispatcher ->
  getattr self "futures" = Some fa ->
  heap w !! fa = Some (ListOfFutures old) ->
  let done := dispatch rt dispatcher event args kwargs in
  let future :=
    {| fut_dispatcher := dispatcher; fut_event := event; fut_args := args;
       fut_kwargs := kwargs; fut_outcome := snd done |} in
  EventRemoteTargetHandler.emit_target rt self event args kwargs target w
  = (Ok tt, {| heap := <[fa := ListOfFutures (old ++ [future])]> (heap w);
               wire := wire w ++ fst done |}).
Proof.
  intros Hwants Hcreate Hfa Hw. cbv zeta.
  unfold EventRemoteTargetHandler.emit_target, bind, lift, submit, attr, ret,
    load_futures, store.
  rewrite Hwants, Hcreate.
  destruct (dispatch rt dispatcher event args kwargs) as [effects outcome].
  rewrite Hfa. cbn [heap wire fst snd]. now rewrite Hw.
Qed.

Lemma create_error_class (rt : Runtime) (target : EventRemoteTarget) (e : exn) :
  EventRemoteDispatcherFactory.create rt target = Raise e ->
  classify e = UnsupportedTargetError \/ classify e = IntegrationUnavailableError.
Proof.
  destruct target as [t|t|t]; cbn.
  - discriminate.
  - unfold EventRemoteCeleryDispatcher.__init__.
    destruct (negb (celery_installed rt)); [|discriminate].
    intros [= <-]. now right.
  - intros [= <-]. now left.
Qed.

(** What one run of the loop of [emit] adds to the retained futures, when it
    runs to its end: one dispatch per target that wants the event, in the
    order of the registry. *)
Lemma emit_loop_futures (rt : Runtime) (self : instance) (event : pyval)
  (args : list pyval) (kwargs : dict) (fa : addr) (targets : list EventRemoteTarget) :
  getattr self "futures" = Some fa ->
  forall (old : list Future) (w w' : World),
    heap w !! fa = Some (ListOfFutures old) ->
    EventRemoteTargetHandler.emit_loop rt self event args kwargs targets w = (Ok tt, w') ->
    exists new,
      heap w' !! fa = Some (ListOfFutures (old ++ new))
      /\ Forall2 (dispatch_of rt event args kwargs)
           (List.filter (fun t => EventRemoteTargetHandler.wants t event) targets) new.
Proof.
  intros Hfa. induction targets as [|target targets IH]; intros old w w' Hw Hloop.
  - cbn in Hloop. injection Hloop as <-. exists []. rewrite app_nil_r.
    split; [exact Hw | constructor].
  - cbn [EventRemoteTargetHandler.emit_loop] in Hloop. unfold bind in Hloop.
    cbn [List.filter].
    destruct (EventRemoteTargetHandler.wants target event) eqn:Hwants.
    + destruct (EventRemoteDispatcherFactory.create rt target) as [d|e] eqn:Hcreate.
      * rewrite (emit_target_submits rt self event args kwargs target d fa old w
                   Hwants Hcreate Hfa Hw) in Hloop.
        cbv zeta in Hloop.
        eapply IH in Hloop as [new [Hnew Hall]].
        2:{ cbn [heap]. apply list_lookup_insert_eq.
            eapply lookup_lt_Some. exact Hw. }
        eexists (_ :: new). split.
        -- rewrite Hnew. now rewrite <- app_assoc.
        -- constructor; [|exact Hall]. repeat split. exact Hcreate.
      * rewrite (emit_target_raises rt self event args kwargs target e w
                   Hwants Hcreate) in Hloop.
        discriminate.
    + rewrite (emit_target_skips rt self event args kwargs target w Hwants) in Hloop.
      now apply (IH old w w').
Qed.

(** The loop of [emit] runs to its end when it can go past every target. *)
Lemma emit_loop_returns (rt : Runtime) (self : instance) (event : pyval)
  (args : list pyval) (kwargs : dict) (fa : addr) (targets : list EventRemoteTarget) :
  getattr self "futures" = Some fa ->
  forallb (can_dispatch rt event) targets = true ->
  forall (old : list Future) (w : World),
    heap w !! fa = Some (ListOfFutures old) ->
    exists w',
      EventRemoteTargetHandler.emit_loop rt self event args kwargs targets w = (Ok tt, w').
Proof.
  intros Hfa. induction targets as [|target targets IH]; intros Hall old w Hw.
  - now exists w.
  - cbn [forallb] in Hall. apply andb_prop in Hall as [Hcan Hall].
    cbn [EventRemoteTargetHandler.emit_loop]. unfold bind.
    unfold can_dispatch in Hcan.
    destruct (EventRemoteTargetHandler.wants target event) eqn:Hwants.
    + destruct (EventRemoteDispatcherFactory.create rt target) as [d|e] eqn:Hcreate;
        [|discriminate].
      rewrite (emit_target_submits rt self event args kwargs target d fa old w
                 Hwants Hcreate Hfa Hw).
      cbv zeta. eapply (IH Hall).
      cbn [heap]. apply list_lookup_insert_eq. eapply lookup_lt_Some. exact Hw.
    + rewrite (emit_target_skips rt self event args kwargs target w Hwants).
      exact (IH Hall old w Hw).
Qed.

(** C1, as the code has it.  [emit] asks the factory for the dispatcher
    before it submits anything to the pool, so a dispatcher that cannot be
    created is a synchronous error of [emit]: at the first registered target
    that wants the event and for which [create] raises, that exception
    ([NotImplementedError] for a target of neither subclass, the
    integration-missing [Exception] for a queue target) leaves [emit].  The
    dispatches submitted for the targets before it stay as they are, and
    nothing is submitted for that target or the ones after it. *)
Theorem emit_raises_when_no_dispatcher (rt : Runtime) (self : instance)
  (event : pyval) (args : list pyval) (kwargs : dict) (a : addr)
  (before after : list EventRemoteTarget) (target : EventRemoteTarget) (e : exn)
  (w w1 : World) :
  getattr self "targets" = Some a ->
  heap w !! a = Some (ListOfTargets (before ++ target :: after)) ->
  EventRemoteTargetHandler.emit_loop rt self event args kwargs before w = (Ok tt, w1) ->
  EventRemoteTargetHandler.wants target event = true ->
  EventRemoteDispatcherFactory.create rt target = Raise e ->
  EventRemoteTargetHandler.emit rt self event args kwargs w = (Raise e, w1)
  /\ (classify e = UnsupportedTargetError \/ classify e = IntegrationUnavailableError).
Proof.
  intros Ha Hw Hbefore Hwants Hcreate. split.
  - rewrite (emit_unfold rt self event args kwargs a _ w Ha Hw).
    rewrite emit_loop_app, Hbefore.
    cbn [EventRemoteTargetHandler.emit_loop]. unfold bind.
    now rewrite (emit_target_raises rt self event args kwargs target e w1 Hwants Hcreate).
  - exact (create_error_class rt target e Hcreate).
Qed.

Lemma emit_raises_when_no_dispatcher_witness :
  let rt := scenario_runtime true responds_200 in
  let self := {| __dict__ := [("executor", 2); ("futures", 3)] |} in
  let sqs :=
    BaseTarget {| base_type := other_kind "sqs"; base_events := None; base_fields := [] |} in
  let a :=
    URLTarget {| url_type := url; url_address := "http://a.test"; url_headers := [];
                 url_events := None |} in
  let e := NotImplementedError "EventRemoteDispatcher for sqs not implemented" in
  let w :=
    {| heap := [ListOfTargets [a; sqs; a]; ListOfFutures []; ThreadPoolExecutor 10;
                ListOfFutures []];
       wire := [] |} in
  let w1 := exec (EventRemoteTargetHandler.emit_loop rt self (VStr "order.created") [] [] [a]) w in
  EventRemoteTargetHandler.emit rt self (VStr "order.created") [] [] w = (Raise e, w1)
  /\ (classify e = UnsupportedTargetError \/ classify e = IntegrationUnavailableError).
Proof.
  intros rt self sqs a e w w1.
  apply (emit_raises_when_no_dispatcher rt self (VStr "order.created") [] [] 0
           [a] [a] sqs e w w1); reflexivity.
Defined.

(** C1, as stated, fails: with the task-queue integration missing, [emit]
    to a registered queue target raises; no handle is retained, so
    [wait_for_all] has nothing to report. *)
Lemma emit_raises_without_celery :
  let rt := scenario_runtime false responds_200 in
  exists self w e,
    queue_then_http_scenario rt class_body = (Ok self, w)
    /\ EventRemoteTargetHandler.emit rt self (VStr "order.created") [] [] w = (Raise e, w)
    /\ classify e = IntegrationUnavailableError
    /\ futures_of self w = Some []
    /\ fst (EventRemoteTargetHandler.wait_for_all self w) = Ok tt.
Proof.
  cbv zeta. eexists _, _, _. split; [reflexivity|].
  repeat split; reflexivity.
Qed.




Lemma wait_loop_all_done (futures : list Future) (w : World) :
  Forall (fun future => fut_outcome future = Ok tt) futures ->
  EventRemoteTargetHandler.wait_loop futures w = (Ok tt, w).
Proof.
  induction 1 as [|future rest Hdone _ IH]; [reflexivity|].
  cbn [EventRemoteTargetHandler.wait_loop]. unfold bind, lift, Future_result.
  now rewrite Hdone.
Qed.

Lemma wait_loop_first_error (before after : list Future) (failed : Future) (e : exn)
  (w : World) :
  Forall (fun future => fut_outcome future = Ok tt) before ->
  fut_outcome failed = Raise e ->
  EventRemoteTargetHandler.wait_loop (before ++ failed :: after) w = (Raise e, w).
Proof.
  intros Hbefore Hfailed.
  induction Hbefore as [|future rest Hdone _ IH];
    cbn [app EventRemoteTargetHandler.wait_loop]; unfold bind, lift, Future_result.
  - now rewrite Hfailed.
  - now rewrite Hdone.
Qed.

(** X9.  With no failed dispatch among the retained futures (none at all
    included), [wait_for_all] returns and leaves the collection empty. *)
Lemma wait_for_all_drains (self : instance) (fa : addr) (futures : list Future)
  (w : World) :
  getattr self "futures" = Some fa ->
  heap w !! fa = Some (ListOfFutures futures) ->
  Forall (fun future => fut_outcome future = Ok tt) futures ->
  EventRemoteTargetHandler.wait_for_all self w
  = (Ok tt, {| heap := <[fa := ListOfFutures []]> (heap w); wire := wire w |})
  /\ futures_of self (exec (EventRemoteTargetHandler.wait_for_all self) w) = Some [].
Proof.
  intros Hfa Hw Hdone.
  assert (EventRemoteTargetHandler.wait_for_all self w
          = (Ok tt, {| heap := <[fa := ListOfFutures []]> (heap w); wire := wire w |}))
    as Hrun.
  { unfold EventRemoteTargetHandler.wait_for_all, attr, bind, ret, load_futures.
    rewrite Hfa, Hw. now rewrite (wait_loop_all_done futures w Hdone). }
  split; [exact Hrun|].
  unfold exec, futures_of. rewrite Hrun, Hfa. cbn [snd heap].
  rewrite list_lookup_insert_eq; [reflexivity|].
  eapply lookup_lt_Some. exact Hw.
Qed.

(** X10.  With a failed dispatch among them, [wait_for_all] raises the
    error of the first one and changes nothing: the collection is not
    emptied. *)
Lemma wait_for_all_keeps_on_error (self : instance) (fa : addr)
  (before after : list Future) (failed : Future) (e : exn) (w : World) :
  getattr self "futures" = Some fa ->
  heap w !! fa = Some (ListOfFutures (before ++ failed :: after)) ->
  Forall (fun future => fut_outcome future = Ok tt) before ->
  fut_outcome failed = Raise e ->
  EventRemoteTargetHandler.wait_for_all self w = (Raise e, w).
Proof.
  intros Hfa Hw Hbefore Hfailed.
  unfold EventRemoteTargetHandler.wait_for_all, attr, bind, ret, load_futures.
  rewrite Hfa, Hw.
  now rewrite (wait_loop_first_error before after failed e w Hbefore Hfailed).
Qed.

(** C2: where the code departs from the claim.  A handler emits one event
    to two HTTP targets, of which the first cannot be reached.
    [wait_for_all] then raises the error of the first dispatch and leaves
    the world as it was: both futures are still retained, and a second
    [wait_for_all] raises the same error again. *)
Theorem wait_for_all_keeps_failed_futures :
  let rt := scenario_runtime true only_b_reachable in
  let e := RequestException "connection refused" in
  exists self w failed delivered,
    two_posts_scenario rt class_body = (Ok self, w)
    /\ futures_of self w = Some [failed; delivered]
    /\ fut_outcome failed = Raise e
    /\ fut_outcome delivered = Ok tt
    /\ EventRemoteTargetHandler.wait_for_all self w = (Raise e, w)
    /\ futures_of self (exec (EventRemoteTargetHandler.wait_for_all self) w)
       = Some [failed; delivered]
    /\ EventRemoteTargetHandler.wait_for_all self
         (exec (EventRemoteTargetHandler.wait_for_all self) w) = (Raise e, w).
Proof.
  cbv zeta. eexists _, _, _, _. split; [reflexivity|].
  split; [reflexivity|]. repeat split; reflexivity.
Qed.

(** Every handler that [__init__] builds finds [targets] in the class: the
    one list at address 0.  Only [futures] is bound in the instance, to a
    list of its own. *)
Lemma init_shares_class_targets (w : World) :
  exists self,
    EventRemoteTargetHandler.__init__ w
    = (Ok self, {| heap := (heap w ++ [ThreadPoolExecutor 10]) ++ [ListOfFutures []];
                   wire := wire w |})
    /\ getattr self "targets" = Some 0
    /\ getattr self "futures" = Some (S (length (heap w))).
Proof.
  eexists. split; [|split].
  - unfold EventRemoteTargetHandler.__init__, bind, alloc, ret. cbn [heap wire].
    reflexivity.
  - reflexivity.
  - cbn. rewrite length_app. cbn. f_equal. lia.
Qed.

(** C3: where the code departs from the claim.  After one handler has
    registered a target, a second, newly constructed handler does not start
    with an empty registry: it has the first one's target.  Its future
    collection is empty and its own.  Registering on the second handler, or
    clearing it, changes the registry of the first. *)
Theorem registry_shared_between_handlers :
  let rt := scenario_runtime true responds_200 in
  let a :=
    URLTarget {| url_type := url; url_address := "http://a.test"; url_headers := [];
                 url_events := None |} in
  let b :=
    URLTarget {| url_type := url; url_address := "http://b.test"; url_headers := [];
                 url_events := None |} in
  exists first second w,
    second_handler_scenario rt class_body = (Ok (first, second), w)
    /\ targets_of second w = Some [a]
    /\ futures_of second w = Some []
    /\ getattr first "futures" <> getattr second "futures"
    /\ getattr first "targets" = getattr second "targets"
    /\ targets_of first
         (exec (EventRemoteTargetHandler.register rt second (VStr "http://b.test")) w)
       = Some [a; b]
    /\ targets_of first (exec (EventRemoteTargetHandler.clear second) w) = Some [].
Proof.
  cbv zeta. eexists _, _, _. split; [reflexivity|].
  repeat split; try reflexivity. discriminate.
Qed.

(** The scenario of the two HTTP targets: [order.updated] reaches only the
    unfiltered target, [order.created] reaches both, and the handler is left
    idle by [wait_for_all]. *)
Example filtered_scenario_posts :
  let rt := scenario_runtime true responds_200 in
  fst (filtered_scenario rt (VStr "order.updated") class_body) = Ok ["http://a.test"]
  /\ fst (filtered_scenario rt (VStr "order.created") class_body)
     = Ok ["http://a.test"; "http://b.test"]
  /\ fst (filtered_scenario rt (VEnum "Events" "CREATED" "order.created") class_body)
     = Ok ["http://a.test"].
Proof. repeat split; reflexivity. Qed.

(** * Further properties *)

(** ** Registration and clearing *)

Lemma register_run (rt : Runtime) (self : instance) (raw : pyval)
  (target : EventRemoteTarget) (a : addr) (l : list EventRemoteTarget) (w : World) :
  getattr self "targets" = Some a ->
  heap w !! a = Some (ListOfTargets l) ->
  _parse_target rt raw = Ok target ->
  EventRemoteTargetHandler.register rt self raw w
  = (Ok tt, {| heap := <[a := ListOfTargets (l ++ [target])]> (heap w); wire := wire w |}).
Proof.
  intros Ha Hw Hparse.
  unfold EventRemoteTargetHandler.register, attr, bind, lift, ret, load_targets, store.
  now rewrite Ha, Hparse, Hw.
Qed.

Lemma targets_of_insert (self : instance) (a : addr) (l l' : list EventRemoteTarget)
  (w : World) (effects : list effect) :
  getattr self "targets" = Some a ->
  heap w !! a = Some (ListOfTargets l) ->
  targets_of self {| heap := <[a := ListOfTargets l']> (heap w); wire := effects |}
  = Some l'.
Proof.
  intros Ha Hw. unfold targets_of. rewrite Ha. cbn [heap].
  rewrite list_lookup_insert_eq; [reflexivity|].
  eapply lookup_lt_Some. exact Hw.
Qed.

(** X1.  A successful [register] returns normally and appends the parsed
    target at the end of the registry; it sends nothing and leaves every
    other object of the heap, the retained futures among them, as it was. *)
Theorem register_appends (rt : Runtime) (self : instance) (raw : pyval)
  (target : EventRemoteTarget) (a : addr) (l : list EventRemoteTarget) (w : World) :
  getattr self "targets" = Some a ->
  heap w !! a = Some (ListOfTargets l) ->
  _parse_target rt raw = Ok target ->
  exists w',
    EventRemoteTargetHandler.register rt self raw w = (Ok tt, w')
    /\ targets_of self w' = Some (l ++ [target])
    /\ wire w' = wire w
    /\ forall b, b <> a -> heap w' !! b = heap w !! b.
Proof.
  intros Ha Hw Hparse. eexists. split; [|split; [|split]].
  - exact (register_run rt self raw target a l w Ha Hw Hparse).
  - exact (targets_of_insert self a l _ w _ Ha Hw).
  - reflexivity.
  - intros b Hb. cbn [heap]. apply list_lookup_insert_ne. congruence.
Qed.

Lemma register_appends_witness :
  let rt := scenario_runtime true responds_200 in
  let self := {| __dict__ := [("executor", 2); ("futures", 3)] |} in
  let a :=
    URLTarget {| url_type := url; url_address := "http://a.test"; url_headers := [];
                 url_events := None |} in
  let b :=
    URLTarget {| url_type := url; url_address := "http://b.test"; url_headers := [];
                 url_events := None |} in
  let w :=
    {| heap := [ListOfTargets [a]; ListOfFutures []; ThreadPoolExecutor 10;
                ListOfFutures []];
       wire := [] |} in
  exists w',
    EventRemoteTargetHandler.register rt self (VStr "http://b.test") w = (Ok tt, w')
    /\ targets_of self w' = Some ([a] ++ [b])
    /\ wire w' = wire w
    /\ forall c, c <> 0 -> heap w' !! c = heap w !! c.
Proof.
  intros rt self a b w.
  apply (register_appends rt self (VStr "http://b.test") b 0 [a] w); reflexivity.
Defined.

(** X2.  [register] detects no duplicates: registering the same input twice
    leaves two entries for it at the end of the registry. *)
Theorem register_twice_keeps_both (rt : Runtime) (self : instance) (raw : pyval)
  (target : EventRemoteTarget) (a : addr) (l : list EventRemoteTarget) (w : World) :
  getattr self "targets" = Some a ->
  heap w !! a = Some (ListOfTargets l) ->
  _parse_target rt raw = Ok target ->
  exists w',
    bind (EventRemoteTargetHandler.register rt self raw)
      (fun _ => EventRemoteTargetHandler.register rt self raw) w = (Ok tt, w')
    /\ targets_of self w' = Some (l ++ [target; target]).
Proof.
  intros Ha Hw Hparse. eexists. split.
  - unfold bind at 1. rewrite (register_run rt self raw target a l w Ha Hw Hparse).
    apply (register_run rt self raw target a (l ++ [target])); [exact Ha | | exact Hparse].
    cbn [heap]. apply list_lookup_insert_eq. eapply lookup_lt_Some. exact Hw.
  - cbn [heap wire]. rewrite list_insert_insert_eq.
    rewrite (targets_of_insert self a l _ w _ Ha Hw).
    now rewrite <- app_assoc.
Qed.

Lemma register_twice_keeps_both_witness :
  let rt := scenario_runtime true responds_200 in
  let self := {| __dict__ := [("executor", 2); ("futures", 3)] |} in
  let a :=
    URLTarget {| url_type := url; url_address := "http://a.test"; url_headers := [];
                 url_events := None |} in
  exists w',
    bind (EventRemoteTargetHandler.register rt self (VStr "http://a.test"))
      (fun _ => EventRemoteTargetHandler.register rt self (VStr "http://a.test"))
      class_body = (Ok tt, w')
    /\ targets_of self w' = Some ([] ++ [a; a]).
Proof.
  intros rt self a.
  apply (register_twice_keeps_both rt self (VStr "http://a.test") a 0 [] class_body);
    reflexivity.
Defined.

Lemma clear_run (self : instance) (a fa : addr) (l : list EventRemoteTarget)
  (futures : list Future) (w : World) :
  getattr self "targets" = Some a ->
  getattr self "futures" = Some fa ->
  heap w !! a = Some (ListOfTargets l) ->
  heap w !! fa = Some (ListOfFutures futures) ->
  EventRemoteTargetHandler.clear self w
  = (Ok tt, {| heap := <[fa := ListOfFutures []]> (<[a := ListOfTargets []]> (heap w));
               wire := wire w |}).
Proof.
  intros Ha Hfa Hw Hfw.
  assert (a <> fa) as Hne by (intros ->; congruence).
  unfold EventRemoteTargetHandler.clear, attr, bind, ret, load_targets, load_futures, store.
  rewrite Ha, Hw. cbn [heap wire]. rewrite Hfa. cbn [heap wire].
  rewrite (list_lookup_insert_ne _ a fa _ Hne).
  unfold addr in *. now rewrite Hfw.
Qed.

(** X3.  [clear] returns normally, empties the registry and the handler's
    retained futures, and touches nothing else: no object at another address
    changes and nothing is sent or cancelled. *)
Theorem clear_empties (self : instance) (a fa : addr) (l : list EventRemoteTarget)
  (futures : list Future) (w : World) :
  getattr self "targets" = Some a ->
  getattr self "futures" = Some fa ->
  heap w !! a = Some (ListOfTargets l) ->
  heap w !! fa = Some (ListOfFutures futures) ->
  exists w',
    EventRemoteTargetHandler.clear self w = (Ok tt, w')
    /\ targets_of self w' = Some []
    /\ futures_of self w' = Some []
    /\ wire w' = wire w
    /\ forall b, b <> a -> b <> fa -> heap w' !! b = heap w !! b.
Proof.
  intros Ha Hfa Hw Hfw.
  assert (a <> fa) as Hne by (intros ->; congruence).
  assert (a < length (heap w)) as Hla by (eapply lookup_lt_Some; exact Hw).
  assert (fa < length (heap w)) as Hlfa by (eapply lookup_lt_Some; exact Hfw).
  eexists. split; [exact (clear_run self a fa l futures w Ha Hfa Hw Hfw)|].
  repeat split.
  - unfold targets_of. rewrite Ha. cbn [heap].
    rewrite list_lookup_insert_ne by congruence.
    now rewrite list_lookup_insert_eq.
  - unfold futures_of. rewrite Hfa. cbn [heap].
    rewrite list_lookup_insert_eq; [reflexivity|]. now rewrite length_insert.
  - intros b Hba Hbfa. cbn [heap].
    rewrite list_lookup_insert_ne by congruence.
    apply list_lookup_insert_ne. congruence.
Qed.

Lemma clear_empties_witness :
  let self := {| __dict__ := [("executor", 2); ("futures", 3)] |} in
  let a :=
    URLTarget {| url_type := url; url_address := "http://a.test"; url_headers := [];
                 url_events := None |} in
  let w :=
    {| heap := [ListOfTargets [a]; ListOfFutures []; ThreadPoolExecutor 10;
                ListOfFutures []];
       wire := [] |} in
  exists w',
    EventRemoteTargetHandler.clear self w = (Ok tt, w')
    /\ targets_of self w' = Some []
    /\ futures_of self w' = Some []
    /\ wire w' = wire w
    /\ forall b, b <> 0 -> b <> 3 -> heap w' !! b = heap w !! b.
Proof.
  intros self a w. apply (clear_empties self 0 3 [a] [] w); reflexivity.
Defined.

(** X4.  After [clear], [emit] of any event returns normally and does
    nothing: no dispatch is submitted, nothing is sent. *)
Theorem clear_then_emit_dispatches_nothing (rt : Runtime) (self : instance)
  (event : pyval) (args : list pyval) (kwargs : dict) (a fa : addr)
  (l : list EventRemoteTarget) (futures : list Future) (w : World) :
  getattr self "targets" = Some a ->
  getattr self "futures" = Some fa ->
  heap w !! a = Some (ListOfTargets l) ->
  heap w !! fa = Some (ListOfFutures futures) ->
  let cleared := exec (EventRemoteTargetHandler.clear self) w in
  EventRemoteTargetHandler.emit rt self event args kwargs cleared = (Ok tt, cleared)
  /\ futures_of self cleared = Some []
  /\ wire cleared = wire w.
Proof.
  intros Ha Hfa Hw Hfw. cbv zeta. unfold exec.
  rewrite (clear_run self a fa l futures w Ha Hfa Hw Hfw). cbn [snd].
  assert (a <> fa) as Hne by (intros ->; congruence).
  assert (a < length (heap w)) as Hla by (eapply lookup_lt_Some; exact Hw).
  assert (fa < length (heap w)) as Hlfa by (eapply lookup_lt_Some; exact Hfw).
  repeat split.
  - rewrite (emit_unfold rt self event args kwargs a [] _ Ha); [reflexivity|].
    cbn [heap]. rewrite list_lookup_insert_ne by congruence.
    now rewrite list_lookup_insert_eq.
  - unfold futures_of. rewrite Hfa. cbn [heap].
    rewrite list_lookup_insert_eq; [reflexivity|]. now rewrite length_insert.
Qed.

Lemma clear_then_emit_dispatches_nothing_witness :
  let rt := scenario_runtime true responds_200 in
  let self := {| __dict__ := [("executor", 2); ("futures", 3)] |} in
  let a :=
    URLTarget {| url_type := url; url_address := "http://a.test"; url_headers := [];
                 url_events := None |} in
  let w :=
    {| heap := [ListOfTargets [a]; ListOfFutures []; ThreadPoolExecutor 10;
                ListOfFutures []];
       wire := [] |} in
  let cleared := exec (EventRemoteTargetHandler.clear self) w in
  EventRemoteTargetHandler.emit rt self (VStr "order.created") [] [] cleared
  = (Ok tt, cleared)
  /\ futures_of self cleared = Some []
  /\ wire cleared = wire w.
Proof.
  intros rt self a w.
  apply (clear_then_emit_dispatches_nothing rt self (VStr "order.created") [] [] 0 3
           [a] [] w); reflexivity.
Defined.

(** ** Construction *)

(** X5.  Whatever the world, [__init__] returns a handler whose registry is
    the list the class holds (at address 0), with whatever targets are in it
    already, and whose retained futures are a new, empty list; the objects
    that existed before are untouched and nothing is sent. *)
Theorem init_builds_fresh_handler (l : list EventRemoteTarget) (w : World) :
  heap w !! 0 = Some (ListOfTargets l) ->
  exists self w',
    EventRemoteTargetHandler.__init__ w = (Ok self, w')
    /\ targets_of self w' = Some l
    /\ futures_of self w' = Some []
    /\ wire w' = wire w
    /\ forall b, b < length (heap w) -> heap w' !! b = heap w !! b.
Proof.
  intros Hw.
  assert (0 < length (heap w)) as Hlen by (eapply lookup_lt_Some; exact Hw).
  eexists; eexists. split; [|split; [|split; [|split]]].
  - unfold EventRemoteTargetHandler.__init__, bind, alloc, ret. cbn [heap wire].
    reflexivity.
  - unfold targets_of. cbn [getattr __dict__ dict_lookup class_dict String.eqb
                              Ascii.eqb Bool.eqb heap].
    rewrite <- app_assoc. rewrite lookup_app_l by exact Hlen. now rewrite Hw.
  - unfold futures_of. cbn [getattr __dict__ dict_lookup String.eqb Ascii.eqb
                              Bool.eqb heap].
    rewrite lookup_app_r by (rewrite length_app; cbn; lia).
    rewrite length_app. cbn [length].
    replace (length (heap w) + 1 - (length (heap w) + 1)) with 0 by lia.
    reflexivity.
  - reflexivity.
  - intros b Hb. cbn [heap]. rewrite <- app_assoc. now apply lookup_app_l.
Qed.

Lemma init_builds_fresh_handler_witness :
  let a :=
    URLTarget {| url_type := url; url_address := "http://a.test"; url_headers := [];
                 url_events := None |} in
  let w :=
    {| heap := [ListOfTargets [a]; ListOfFutures []; ThreadPoolExecutor 10;
                ListOfFutures []];
       wire := [] |} in
  exists self w',
    EventRemoteTargetHandler.__init__ w = (Ok self, w')
    /\ targets_of self w' = Some [a]
    /\ futures_of self w' = Some []
    /\ wire w' = wire w
    /\ forall b, b < length (heap w) -> heap w' !! b = heap w !! b.
Proof.
  intros a w. apply (init_builds_fresh_handler [a] w). reflexivity.
Defined.

(** ** Emission *)

Lemma dispatch_one_call (rt : Runtime) (dispatcher : EventRemoteDispatcher)
  (event : pyval) (args : list pyval) (kwargs : dict) :
  transport_calls (fst (dispatch rt dispatcher event args kwargs)) = 1.
Proof.
  destruct dispatcher as [target|target app]; cbn [dispatch].
  - unfold EventRemoteURLDispatcher.dispatch.
    destruct (requests_post rt _); reflexivity.
  - unfold EventRemoteCeleryDispatcher.dispatch.
    destruct (send_task rt _); reflexivity.
Qed.

Lemma transport_calls_app (e1 e2 : list effect) :
  transport_calls (e1 ++ e2) = transport_calls e1 + transport_calls e2.
Proof.
  unfold transport_calls, posts, tasks.
  rewrite !flat_map_app, !length_app. lia.
Qed.

(** Whatever its outcome, the loop of [emit] only appends to the handler's
    futures and to the wire, one transport call per future. *)
Lemma emit_loop_frame (rt : Runtime) (self : instance) (event : pyval)
  (args : list pyval) (kwargs : dict) (fa : addr) (targets : list EventRemoteTarget) :
  getattr self "futures" = Some fa ->
  forall (old : list Future) (w : World) (r : result unit) (w' : World),
    heap w !! fa = Some (ListOfFutures old) ->
    EventRemoteTargetHandler.emit_loop rt self event args kwargs targets w = (r, w') ->
    exists new effects,
      heap w' = <[fa := ListOfFutures (old ++ new)]> (heap w)
      /\ wire w' = wire w ++ effects
      /\ transport_calls effects = length new.
Proof.
  intros Hfa.
  assert (forall (old : list Future) (w : World),
             heap w !! fa = Some (ListOfFutures old) ->
             exists new effects,
               heap w = <[fa := ListOfFutures (old ++ new)]> (heap w)
               /\ wire w = wire w ++ effects
               /\ transport_calls effects = length new) as Hstay.
  { intros old w Hw. exists [], []. rewrite !app_nil_r.
    split; [symmetry; apply list_insert_id; exact Hw | split; reflexivity]. }
  induction targets as [|target targets IH]; intros old w r w' Hw Hloop.
  - cbn in Hloop. injection Hloop as <- <-. now apply Hstay.
  - cbn [EventRemoteTargetHandler.emit_loop] in Hloop. unfold bind in Hloop.
    destruct (EventRemoteTargetHandler.wants target event) eqn:Hwants.
    + destruct (EventRemoteDispatcherFactory.create rt target) as [d|e] eqn:Hcreate.
      * rewrite (emit_target_submits rt self event args kwargs target d fa old w
                   Hwants Hcreate Hfa Hw) in Hloop.
        cbv zeta in Hloop.
        eapply IH in Hloop as (new & effects & Hheap & Hwire & Hcalls).
        2:{ cbn [heap]. apply list_lookup_insert_eq.
            eapply lookup_lt_Some. exact Hw. }
        eexists (_ :: new), (_ ++ effects). split; [|split].
        -- rewrite Hheap. cbn [heap]. rewrite list_insert_insert_eq.
           now rewrite <- app_assoc.
        -- rewrite Hwire. cbn [wire]. now rewrite <- app_assoc.
        -- rewrite transport_calls_app, dispatch_one_call, Hcalls. reflexivity.
      * rewrite (emit_target_raises rt self event args kwargs target e w
                   Hwants Hcreate) in Hloop.
        injection Hloop as <- <-. now apply Hstay.
    + rewrite (emit_target_skips rt self event args kwargs target w Hwants) in Hloop.
      now apply (IH old w r w').
Qed.

(** X6.  Whether it returns or raises, [emit] only appends: the futures
    retained before are still there, in front of the new ones, what was sent
    before is still on the wire, and every new future stands for exactly one
    call to a transport (one POST or one task). *)
Theorem emit_only_appends (rt : Runtime) (self : instance) (event : pyval)
  (args : list pyval) (kwargs : dict) (a fa : addr) (targets : list EventRemoteTarget)
  (old : list Future) (w : World) :
  getattr self "targets" = Some a ->
  getattr self "futures" = Some fa ->
  heap w !! a = Some (ListOfTargets targets) ->
  heap w !! fa = Some (ListOfFutures old) ->
  let w' := exec (EventRemoteTargetHandler.emit rt self event args kwargs) w in
  exists new effects,
    futures_of self w' = Some (old ++ new)
    /\ wire w' = wire w ++ effects
    /\ length (posts effects) + length (tasks effects) = length new.
Proof.
  intros Ha Hfa Hw Hfw. cbv zeta. unfold exec.
  rewrite (emit_unfold rt self event args kwargs a targets w Ha Hw).
  destruct (EventRemoteTargetHandler.emit_loop rt self event args kwargs targets w)
    as [r w'] eqn:Hloop.
  destruct (emit_loop_frame rt self event args kwargs fa targets Hfa old w r w' Hfw Hloop)
    as (new & effects & Hheap & Hwire & Hcalls).
  exists new, effects. cbn [snd]. split; [|split; [exact Hwire | exact Hcalls]].
  unfold futures_of. rewrite Hfa, Hheap.
  rewrite list_lookup_insert_eq; [reflexivity|].
  eapply lookup_lt_Some. exact Hfw.
Qed.

Lemma emit_only_appends_witness :
  let rt := scenario_runtime false responds_200 in
  let self := {| __dict__ := [("executor", 2); ("futures", 3)] |} in
  let a :=
    URLTarget {| url_type := url; url_address := "http://a.test"; url_headers := [];
                 url_events := None |} in
  let q :=
    CeleryTarget {| celery_type := celery; celery_address := "redis://broker";
                    celery_events := None; queue_name := "eolic";
                    function_name := "eolic.handle" |} in
  let w :=
    {| heap := [ListOfTargets [a; q; a]; ListOfFutures []; ThreadPoolExecutor 10;
                ListOfFutures []];
       wire := [] |} in
  let w' := exec (EventRemoteTargetHandler.emit rt self (VStr "order.created") [] []) w in
  exists new effects,
    futures_of self w' = Some ([] ++ new)
    /\ wire w' = wire w ++ effects
    /\ length (posts effects) + length (tasks effects) = length new.
Proof.
  intros rt self a q w.
  apply (emit_only_appends rt self (VStr "order.created") [] [] 0 3 [a; q; a] [] w);
    reflexivity.
Defined.

(** X7.  Whether it returns or raises, [emit] writes to one object only,
    the list of the handler's own futures: the registry is as before, and so
    is every other object of the heap, the futures of other handlers among
    them. *)
Theorem emit_writes_own_futures_only (rt : Runtime) (self : instance) (event : pyval)
  (args : list pyval) (kwargs : dict) (a fa : addr) (targets : list EventRemoteTarget)
  (old : list Future) (w : World) :
  getattr self "targets" = Some a ->
  getattr self "futures" = Some fa ->
  heap w !! a = Some (ListOfTargets targets) ->
  heap w !! fa = Some (ListOfFutures old) ->
  let w' := exec (EventRemoteTargetHandler.emit rt self event args kwargs) w in
  targets_of self w' = Some targets
  /\ forall b, b <> fa -> heap w' !! b = heap w !! b.
Proof.
  intros Ha Hfa Hw Hfw. cbv zeta. unfold exec.
  assert (a <> fa) as Hne by (intros ->; congruence).
  rewrite (emit_unfold rt self event args kwargs a targets w Ha Hw).
  destruct (EventRemoteTargetHandler.emit_loop rt self event args kwargs targets w)
    as [r w'] eqn:Hloop.
  destruct (emit_loop_frame rt self event args kwargs fa targets Hfa old w r w' Hfw Hloop)
    as (new & effects & Hheap & _ & _).
  cbn [snd]. split.
  - unfold targets_of. rewrite Ha, Hheap.
    rewrite list_lookup_insert_ne by congruence.
    unfold addr in *. now rewrite Hw.
  - intros b Hb. rewrite Hheap. apply list_lookup_insert_ne. congruence.
Qed.

Lemma emit_writes_own_futures_only_witness :
  let rt := scenario_runtime true responds_200 in
  let self := {| __dict__ := [("executor", 2); ("futures", 3)] |} in
  let a :=
    URLTarget {| url_type := url; url_address := "http://a.test"; url_headers := [];
                 url_events := None |} in
  let w :=
    {| heap := [ListOfTargets [a]; ListOfFutures []; ThreadPoolExecutor 10;
                ListOfFutures []; ThreadPoolExecutor 10; ListOfFutures []];
       wire := [] |} in
  let w' := exec (EventRemoteTargetHandler.emit rt self (VStr "order.created") [] []) w in
  targets_of self w' = Some [a]
  /\ forall b, b <> 3 -> heap w' !! b = heap w !! b.
Proof.
  intros rt self a w.
  apply (emit_writes_own_futures_only rt self (VStr "order.created") [] [] 0 3 [a] [] w);
    reflexivity.
Defined.

(** ** Waiting *)

Lemma wait_loop_first (futures : list Future) (w : World) :
  EventRemoteTargetHandler.wait_loop futures w = (first_error futures, w).
Proof.
  induction futures as [|future rest IH]; [reflexivity|].
  cbn [EventRemoteTargetHandler.wait_loop first_error].
  unfold bind, lift, Future_result.
  destruct (fut_outcome future) as [[]|e]; [exact IH | reflexivity].
Qed.

Lemma wait_for_all_run (self : instance) (fa : addr) (futures : list Future)
  (w : World) :
  getattr self "futures" = Some fa ->
  heap w !! fa = Some (ListOfFutures futures) ->
  EventRemoteTargetHandler.wait_for_all self w
  = match first_error futures with
    | Ok _ => (Ok tt, {| heap := <[fa := ListOfFutures []]> (heap w); wire := wire w |})
    | Raise e => (Raise e, w)
    end.
Proof.
  intros Hfa Hw.
  unfold EventRemoteTargetHandler.wait_for_all, attr, bind, ret, load_futures.
  rewrite Hfa, Hw, wait_loop_first.
  now destruct (first_error futures) as [[]|e].
Qed.

Lemma first_error_app_done (old new : list Future) :
  Forall (fun future => fut_outcome future = Ok tt) old ->
  first_error (old ++ new) = first_error new.
Proof.
  induction 1 as [|future rest Hdone _ IH]; [reflexivity|].
  cbn [app first_error]. now rewrite Hdone.
Qed.

Lemma first_error_dispatches (rt : Runtime) (event : pyval) (args : list pyval)
  (kwargs : dict) (targets : list EventRemoteTarget) :
  forall new,
    Forall2 (dispatch_of rt event args kwargs)
      (List.filter (fun t => EventRemoteTargetHandler.wants t event) targets) new ->
    first_error new = deferred_error rt event args kwargs targets.
Proof.
  induction targets as [|target targets IH]; intros new Hall.
  - inversion Hall. reflexivity.
  - cbn [List.filter deferred_error] in Hall |- *.
    destruct (EventRemoteTargetHandler.wants target event).
    + inversion Hall as [|t future ts rest Hof Hrest]; subst.
      destruct Hof as (Hcreate & _ & _ & _ & Hout).
      rewrite Hcreate. cbn [first_error]. rewrite Hout.
      destruct (snd (dispatch rt (fut_dispatcher future) event args kwargs));
        [now apply IH | reflexivity].
    + now apply IH.
Qed.

(** X8.  [emit] followed by [wait_for_all], on a handler whose earlier
    futures have all succeeded and whose wanting targets can all be given a
    dispatcher: [emit] returns normally, whatever the transports do.  Then
    [wait_for_all] raises the error of the first failed dispatch, in registry
    order, and changes nothing; or, if no dispatch failed, it returns and
    leaves no future retained. *)
Theorem emit_then_wait_for_all (rt : Runtime) (self : instance) (event : pyval)
  (args : list pyval) (kwargs : dict) (a fa : addr) (targets : list EventRemoteTarget)
  (old : list Future) (w : World) :
  getattr self "targets" = Some a ->
  getattr self "futures" = Some fa ->
  heap w !! a = Some (ListOfTargets targets) ->
  heap w !! fa = Some (ListOfFutures old) ->
  Forall (fun future => fut_outcome future = Ok tt) old ->
  forallb (can_dispatch rt event) targets = true ->
  exists w',
    EventRemoteTargetHandler.emit rt self event args kwargs w = (Ok tt, w')
    /\ match deferred_error rt event args kwargs targets with
       | Ok _ =>
           exists w'',
             EventRemoteTargetHandler.wait_for_all self w' = (Ok tt, w'')
             /\ futures_of self w'' = Some []
       | Raise e => EventRemoteTargetHandler.wait_for_all self w' = (Raise e, w')
       end.
Proof.
  intros Ha Hfa Hw Hfw Hold Hcan.
  destruct (emit_loop_returns rt self event args kwargs fa targets Hfa Hcan old w Hfw)
    as [w' Hloop].
  destruct (emit_loop_futures rt self event args kwargs fa targets Hfa old w w'
              Hfw Hloop) as [new [Hnew Hall]].
  exists w'. split.
  - now rewrite (emit_unfold rt self event args kwargs a targets w Ha Hw).
  - rewrite (wait_for_all_run self fa (old ++ new) w' Hfa Hnew).
    rewrite (first_error_app_done old new Hold).
    rewrite (first_error_dispatches rt event args kwargs targets new Hall).
    destruct (deferred_error rt event args kwargs targets) as [[]|e]; [|reflexivity].
    eexists. split; [reflexivity|].
    unfold futures_of. rewrite Hfa. cbn [heap].
    rewrite list_lookup_insert_eq; [reflexivity|].
    eapply lookup_lt_Some. exact Hnew.
Qed.

Lemma emit_then_wait_for_all_witness :
  let rt := scenario_runtime true only_b_reachable in
  let self := {| __dict__ := [("executor", 2); ("futures", 3)] |} in
  let a :=
    URLTarget {| url_type := url; url_address := "http://a.test"; url_headers := [];
                 url_events := Some [VStr "order.created"] |} in
  let b :=
    URLTarget {| url_type := url; url_address := "http://b.test"; url_headers := [];
                 url_events := None |} in
  let w :=
    {| heap := [ListOfTargets [b; a]; ListOfFutures []; ThreadPoolExecutor 10;
                ListOfFutures []];
       wire := [] |} in
  (exists w',
      EventRemoteTargetHandler.emit rt self (VStr "order.created") [] [] w = (Ok tt, w')
      /\ EventRemoteTargetHandler.wait_for_all self w'
         = (Raise (RequestException "connection refused"), w'))
  /\ (exists w',
         EventRemoteTargetHandler.emit rt self (VStr "order.updated") [] [] w = (Ok tt, w')
         /\ exists w'',
             EventRemoteTargetHandler.wait_for_all self w' = (Ok tt, w'')
             /\ futures_of self w'' = Some []).
Proof.
  intros rt self a b w. split.
  - apply (emit_then_wait_for_all rt self (VStr "order.created") [] [] 0 3 [b; a] [] w);
      try reflexivity. constructor.
  - apply (emit_then_wait_for_all rt self (VStr "order.updated") [] [] 0 3 [b; a] [] w);
      try reflexivity. constructor.
Defined.

(** ** More on the parser *)

(** X11.  Whatever the input, an error of [_parse_target] is a [TypeError],
    a [KeyError] or a [ValidationError] of a target class, that is, an
    [InvalidTargetError] of the taxonomy; the parser raises nothing else. *)
Theorem parse_errors_are_invalid_target (rt : Runtime) (raw : pyval) (e : exn) :
  _parse_target rt raw = Raise e -> classify e = InvalidTargetError.
Proof.
  unfold _parse_target, EventRemoteTargetType_getitem, EventRemoteURLTarget_new,
    EventRemoteCeleryTarget_new, EventRemoteTarget_new, validate_str, validate_events,
    validate_mapping, rbind.
  intros H.
  repeat match type of H with
    | context [match ?x with _ => _ end] =>
        lazymatch x with
        | context [match _ with _ => _ end] => fail
        | _ => destruct x; try discriminate
        end
    end;
    injection H as <-; reflexivity.
Qed.

Lemma parse_errors_are_invalid_target_witness :
  classify (ValidationError "EventRemoteURLTarget") = InvalidTargetError.
Proof.
  apply (parse_errors_are_invalid_target (scenario_runtime true responds_200)
           (VDict [("type", VStr "url"); ("address", VInt 80)])).
  reflexivity.
Defined.

Lemma getitem_inv (rt : Runtime) (name : string) (k : EventRemoteTargetType) :
  EventRemoteTargetType_getitem rt name = Ok k ->
  match k with
  | url | celery => True
  | other_kind n => In n (other_members rt)
  end.
Proof.
  unfold EventRemoteTargetType_getitem.
  destruct (String.eqb name "url"); [now intros [= <-]|].
  destruct (String.eqb name "celery"); [now intros [= <-]|].
  destruct (existsb (String.eqb name) (other_members rt)) eqn:Hex; [|discriminate].
  intros [= <-]. apply existsb_exists in Hex as [n [Hin Heq]].
  apply String.eqb_eq in Heq. now subst.
Qed.

Lemma parse_class_kind (rt : Runtime) (raw : pyval) (target : EventRemoteTarget) :
  _parse_target rt raw = Ok target ->
  match target with
  | URLTarget t => url_type t = url
  | CeleryTarget t => celery_type t = celery
  | BaseTarget t => exists name, base_type t = other_kind name /\ In name (other_members rt)
  end.
Proof.
  unfold _parse_target. intros H.
  destruct raw as [| |s| | |d]; try discriminate.
  - cbn in H. now injection H as <-.
  - destruct (dict_get d "type" VNone) as [| |name| | |]; try discriminate.
    destruct (EventRemoteTargetType_getitem rt name) as [k|] eqn:Hk; [|discriminate].
    apply getitem_inv in Hk. cbn [rbind] in H.
    destruct k as [| |n].
    + destruct (dict_lookup d "address"); [|discriminate].
      unfold EventRemoteURLTarget_new, rbind in H.
      repeat match type of H with
        | context [match ?x with _ => _ end] => destruct x; try discriminate
        end.
      now injection H as <-.
    + unfold EventRemoteCeleryTarget_new, rbind in H.
      repeat match type of H with
        | context [match ?x with Ok _ => _ | Raise _ => _ end] =>
            destruct x; try discriminate
        end.
      now injection H as <-.
    + unfold EventRemoteTarget_new, rbind in H.
      destruct (validate_events _ _); [|discriminate].
      injection H as <-. now exists n.
Qed.

(** X12.  The class of a parsed target agrees with its kind: an HTTP
    target has kind [url], a queue target kind [celery], and a target of the
    base class has a kind that is a member of the enumeration other than
    those two.  So when [url] and [celery] are the only members, the factory
    has a dispatcher class for every target the parser returns: [create] can
    fail on it only because the task-queue integration is missing. *)
Theorem parsed_target_is_supported (rt : Runtime) (raw : pyval)
  (target : EventRemoteTarget) :
  _parse_target rt raw = Ok target ->
  match target with
  | URLTarget t => url_type t = url
  | CeleryTarget t => celery_type t = celery
  | BaseTarget t => exists name, base_type t = other_kind name /\ In name (other_members rt)
  end
  /\ (other_members rt = [] ->
      forall e, EventRemoteDispatcherFactory.create rt target = Raise e ->
                celery_installed rt = false /\ classify e = IntegrationUnavailableError).
Proof.
  intros Hparse. pose proof (parse_class_kind rt raw target Hparse) as Hclass.
  split; [exact Hclass|].
  intros Hnone e Hcreate. destruct target as [t|t|t]; cbn in Hcreate.
  - discriminate.
  - unfold EventRemoteCeleryDispatcher.__init__ in Hcreate.
    destruct (celery_installed rt); cbn in Hcreate; [discriminate|].
    injection Hcreate as <-. split; reflexivity.
  - destruct Hclass as [name [_ Hin]]. rewrite Hnone in Hin. destruct Hin.
Qed.

Lemma parsed_target_is_supported_witness :
  let rt := scenario_runtime false responds_200 in
  let q :=
    {| celery_type := celery; celery_address := "redis://broker"; celery_events := None;
       queue_name := "eolic"; function_name := "eolic.handle" |} in
  celery_type q = celery
  /\ (other_members rt = [] ->
      forall e, EventRemoteDispatcherFactory.create rt (CeleryTarget q) = Raise e ->
                celery_installed rt = false /\ classify e = IntegrationUnavailableError).
Proof.
  intros rt q.
  apply (parsed_target_is_supported rt celery_descriptor (CeleryTarget q)).
  reflexivity.
Defined.

(** X13.  The parser reads only the fields of the kind at hand.  Two HTTP
    descriptors that agree on [type], [address], [headers] and [events]
    parse alike, whatever else they hold; two queue descriptors that agree on
    [type], [address], [events], [queue_name] and [function_name] parse
    alike, so the headers of a queue descriptor are dropped. *)
Theorem parse_reads_only_known_fields (rt : Runtime) (d d' : dict) :
  (same_fields ["type"; "address"; "headers"; "events"] d d' ->
   dict_lookup d "type" = Some (VStr "url") ->
   _parse_target rt (VDict d) = _parse_target rt (VDict d'))
  /\ (same_fields ["type"; "address"; "events"; "queue_name"; "function_name"] d d' ->
      dict_lookup d "type" = Some (VStr "celery") ->
      _parse_target rt (VDict d) = _parse_target rt (VDict d')).
Proof.
  split; intros Hsame Htype; unfold same_fields in Hsame;
    repeat match goal with
      | H : Forall _ (_ :: _) |- _ =>
          let Hhead := fresh "Hkey" in
          apply Forall_cons_1 in H as [Hhead H]
      end;
    unfold _parse_target, dict_get;
    repeat match goal with
      | H : dict_lookup d ?k = dict_lookup d' ?k |- _ => rewrite <- H; clear H
      end;
    now rewrite Htype.
Qed.

Lemma parse_reads_only_known_fields_witness :
  let rt := scenario_runtime true responds_200 in
  _parse_target rt
    (VDict [("type", VStr "celery"); ("address", VStr "redis://broker");
            ("headers", VDict [("X-Api-Key", VStr "k")]); ("retries", VInt 3)])
  = _parse_target rt celery_descriptor.
Proof.
  intros rt.
  apply (proj2 (parse_reads_only_known_fields rt _ _)); [|reflexivity].
  repeat constructor.
Defined.

(** ** More on the dispatchers *)

(** X14.  A member of a plain [Enum] class is dispatched exactly as its
    value string would be, by either dispatcher; but the event filter
    compares the emitted object itself, so a target whose event set holds
    only strings does not want the member, whatever its value. *)
Theorem enum_event_sent_as_value (rt : Runtime) (cls member value : string) :
  (forall dispatcher args kwargs,
      dispatch rt dispatcher (VEnum cls member value) args kwargs
      = dispatch rt dispatcher (VStr value) args kwargs)
  /\ (forall target evs,
         events target = Some evs -> forallb is_str evs = true ->
         EventRemoteTargetHandler.wants target (VEnum cls member value) = false).
Proof.
  split.
  - intros [target|target app] args kwargs; reflexivity.
  - intros target evs Hevs Hstr. unfold EventRemoteTargetHandler.wants.
    rewrite Hevs. unfold py_in. clear Hevs.
    induction evs as [|e evs IH]; [reflexivity|].
    cbn [forallb] in Hstr. apply andb_prop in Hstr as [He Hstr].
    cbn [existsb]. rewrite (IH Hstr). now destruct e.
Qed.

Lemma enum_event_sent_as_value_witness :
  let b :=
    URLTarget {| url_type := url; url_address := "http://b.test"; url_headers := [];
                 url_events := Some [VStr "order.created"] |} in
  EventRemoteTargetHandler.wants b (VEnum "Events" "CREATED" "order.created") = false.
Proof.
  intros b.
  apply (proj2 (enum_event_sent_as_value (scenario_runtime true responds_200)
                  "Events" "CREATED" "order.created") b [VStr "order.created"]);
    reflexivity.
Defined.

(** ** Witnesses for the two paths of [wait_for_all] *)

Lemma wait_for_all_drains_witness :
  let self := {| __dict__ := [("executor", 2); ("futures", 3)] |} in
  let a :=
    {| url_type := url; url_address := "http://a.test"; url_headers := [];
       url_events := None |} in
  let delivered :=
    {| fut_dispatcher := URLDispatcher a; fut_event := VStr "order.created";
       fut_args := []; fut_kwargs := []; fut_outcome := Ok tt |} in
  let w :=
    {| heap := [ListOfTargets [URLTarget a]; ListOfFutures []; ThreadPoolExecutor 10;
                ListOfFutures [delivered; delivered]];
       wire := [] |} in
  EventRemoteTargetHandler.wait_for_all self w
  = (Ok tt, {| heap := <[3 := ListOfFutures []]> (heap w); wire := wire w |})
  /\ futures_of self (exec (EventRemoteTargetHandler.wait_for_all self) w) = Some [].
Proof.
  intros self a delivered w.
  apply (wait_for_all_drains self 3 [delivered; delivered] w); try reflexivity.
  repeat constructor.
Defined.

Lemma wait_for_all_keeps_on_error_witness :
  let self := {| __dict__ := [("executor", 2); ("futures", 3)] |} in
  let a :=
    {| url_type := url; url_address := "http://a.test"; url_headers := [];
       url_events := None |} in
  let delivered :=
    {| fut_dispatcher := URLDispatcher a; fut_event := VStr "order.created";
       fut_args := []; fut_kwargs := []; fut_outcome := Ok tt |} in
  let failed :=
    {| fut_dispatcher := URLDispatcher a; fut_event := VStr "order.created";
       fut_args := []; fut_kwargs := [];
       fut_outcome := Raise (RequestException "timed out") |} in
  let w :=
    {| heap := [ListOfTargets [URLTarget a]; ListOfFutures []; ThreadPoolExecutor 10;
                ListOfFutures [delivered; failed; delivered]];
       wire := [] |} in
  EventRemoteTargetHandler.wait_for_all self w = (Raise (RequestException "timed out"), w).
Proof.
  intros self a delivered failed w.
  apply (wait_for_all_keeps_on_error self 3 [delivered] [delivered] failed
           (RequestException "timed out") w); try reflexivity.
  repeat constructor.
Defined.

(** ** More on registration inputs *)

(** X15.  A queue descriptor whose [queue_name] and [function_name] are
    falsy (absent, [None], the empty string, zero, an empty collection) is
    parsed as if it had neither field: both names are left to the class
    defaults of the queue target. *)
Theorem parse_celery_falsy_names_are_absent (rt : Runtime) (d : dict) :
  dict_lookup d "type" = Some (VStr "celery") ->
  py_truthy (dict_get d "queue_name" VNone) = false ->
  py_truthy (dict_get d "function_name" VNone) = false ->
  _parse_target rt (VDict d)
  = _parse_target rt
      (VDict [("type", VStr "celery"); ("address", dict_get d "address" VNone);
              ("events", dict_get d "events" VNone)]).
Proof.
  intros Htype Hq Hf. unfold _parse_target.
  unfold dict_get at 1. rewrite Htype. rewrite Hq, Hf. reflexivity.
Qed.

Lemma parse_celery_falsy_names_are_absent_witness :
  let rt := scenario_runtime true responds_200 in
  _parse_target rt
    (VDict [("type", VStr "celery"); ("address", VStr "redis://broker");
            ("queue_name", VStr ""); ("function_name", VInt 0)])
  = Ok (CeleryTarget {| celery_type := celery; celery_address := "redis://broker";
                        celery_events := None; queue_name := "eolic";
                        function_name := "eolic.handle" |}).
Proof.
  intros rt.
  rewrite (parse_celery_falsy_names_are_absent rt
             [("type", VStr "celery"); ("address", VStr "redis://broker");
              ("queue_name", VStr ""); ("function_name", VInt 0)]);
    reflexivity.
Defined.

(** X16.  A registration that the parser rejects changes nothing: on any
    handler and in any world, [register] raises the parser's error and leaves
    the registry, the futures and the wire as they were. *)
Theorem register_failure_changes_nothing (rt : Runtime) (self : instance)
  (raw : pyval) (e : exn) (w : World) :
  _parse_target rt raw = Raise e ->
  EventRemoteTargetHandler.register rt self raw w = (Raise e, w)
  /\ targets_of self (exec (EventRemoteTargetHandler.register rt self raw) w)
     = targets_of self w
  /\ futures_of self (exec (EventRemoteTargetHandler.register rt self raw) w)
     = futures_of self w.
Proof.
  intros Hparse. unfold exec.
  rewrite (register_raises rt self raw e w Hparse). repeat split.
Qed.

Lemma register_failure_changes_nothing_witness :
  let rt := scenario_runtime true responds_200 in
  let self := {| __dict__ := [("executor", 2); ("futures", 3)] |} in
  EventRemoteTargetHandler.register rt self (VList [VStr "http://a.test"]) class_body
  = (Raise (TypeError ("Target needs to be of type str or Dict[str, str] but received "
                       ++ "<class 'list'>")), class_body).
Proof.
  intros rt self.
  apply (register_failure_changes_nothing rt self (VList [VStr "http://a.test"])).
  reflexivity.
Defined.
